(** * RevisePDF editor: annotation layer, gestures, zoom and page viewer

    Shallow embedding of [src/revisepdf/js/editor.js] and
    [src/revisepdf/js/pdf-viewer.js].

    Modelling conventions.
    - The module-level globals of editor.js ([annotations], [currentPage],
      [totalPages], [scale]) become fields of explicit state records.
    - Annotation geometry and mouse coordinates are integral pixels ([Z]).
      The element's [style.left/top/width/height] always hold
      [annotation.x + 'px'] etc. (both are written together), so
      [parseInt(element.style.left, 10)] reads back [annotation.x].
    - The [annotations] array is only ever pushed to, so a closure that
      captured an annotation object is modelled by the index of that object
      in the array; mutating the shared object is [alter] at that index.
    - [document.addEventListener('mousemove' / 'mouseup', ...)] closures are
      kept in a list in registration order, the order in which the DOM
      invokes them. *)

From stdpp Require Import base list strings pretty.
From Stdlib Require Import Ascii QArith Qminmax.
Open Scope Z_scope.

(* ================================================================= *)
(** ** Annotation objects *)

(** Values stored in [annotation.data] (a JS object literal). *)
Inductive jsval :=
| JStr (s : string)
| JNum (n : Z).

Module Ann.
(** The object literal built by [createAnnotation]. *)
Record t := mk {
  id : string;
  type : string;
  x : Z;
  y : Z;
  width : Z;
  height : Z;
  page : nat;
  data : list (string * jsval)
}.

Definition set_x (v : Z) (a : t) : t :=
  mk (id a) (type a) v (y a) (width a) (height a) (page a) (data a).
Definition set_y (v : Z) (a : t) : t :=
  mk (id a) (type a) (x a) v (width a) (height a) (page a) (data a).
Definition set_width (v : Z) (a : t) : t :=
  mk (id a) (type a) (x a) (y a) v (height a) (page a) (data a).
Definition set_height (v : Z) (a : t) : t :=
  mk (id a) (type a) (x a) (y a) (width a) v (page a) (data a).
Definition set_data (d : list (string * jsval)) (a : t) : t :=
  mk (id a) (type a) (x a) (y a) (width a) (height a) (page a) d.
End Ann.

(** JS property assignment [obj[k] = v] on an object modelled as an
    association list: overwrite the first binding of [k], or add one. *)
Fixpoint js_set (k : string) (v : jsval) (o : list (string * jsval))
    : list (string * jsval) :=
  match o with
  | [] => [(k, v)]
  | (k', v') :: o' =>
      if String.eqb k k' then (k, v) :: o' else (k', v') :: js_set k v o'
  end.

(* ================================================================= *)
(** ** Drag: the closure of [makeAnnotationInteractive] *)

(** [startX, startY, startLeft, startTop] captured on mousedown. *)
Record drag_start := DragStart {
  d_startX : Z; d_startY : Z; d_startLeft : Z; d_startTop : Z
}.

(** mousedown on the annotation body: capture the pointer and
    [parseInt(element.style.left/top, 10)]. *)
Definition drag_begin (clientX clientY : Z) (a : Ann.t) : drag_start :=
  DragStart clientX clientY (Ann.x a) (Ann.y a).

(** The document mousemove handler while [isDragging]. *)
Definition drag_move (s : drag_start) (clientX clientY : Z) (a : Ann.t) : Ann.t :=
  let deltaX := clientX - d_startX s in
  let deltaY := clientY - d_startY s in
  let newLeft := d_startLeft s + deltaX in
  let newTop := d_startTop s + deltaY in
  Ann.set_y newTop (Ann.set_x newLeft a).

(* ================================================================= *)
(** ** Resize: [startResize] and its [handleMouseMove] *)

(** The four handle names of [addResizeHandles]. *)
Inductive handle := TopLeft | TopRight | BottomLeft | BottomRight.

Record resize_start := ResizeStart {
  r_startX : Z; r_startY : Z;
  r_startWidth : Z; r_startHeight : Z;
  r_startLeft : Z; r_startTop : Z
}.

Definition resize_begin (clientX clientY : Z) (a : Ann.t) : resize_start :=
  ResizeStart clientX clientY (Ann.width a) (Ann.height a) (Ann.x a) (Ann.y a).

(** [handleMouseMove]: the [switch (handle)] followed by the
    [Math.max(..., 20)] minimum-size constraints. *)
Definition resize_geometry (h : handle) (s : resize_start) (clientX clientY : Z)
    : Z * Z * Z * Z :=
  let deltaX := clientX - r_startX s in
  let deltaY := clientY - r_startY s in
  let '(newWidth, newHeight, newLeft, newTop) :=
    match h with
    | TopLeft =>
        (r_startWidth s - deltaX, r_startHeight s - deltaY,
         r_startLeft s + deltaX, r_startTop s + deltaY)
    | TopRight =>
        (r_startWidth s + deltaX, r_startHeight s - deltaY,
         r_startLeft s, r_startTop s + deltaY)
    | BottomLeft =>
        (r_startWidth s - deltaX, r_startHeight s + deltaY,
         r_startLeft s + deltaX, r_startTop s)
    | BottomRight =>
        (r_startWidth s + deltaX, r_startHeight s + deltaY,
         r_startLeft s, r_startTop s)
    end in
  let newWidth := Z.max newWidth 20 in
  let newHeight := Z.max newHeight 20 in
  (newLeft, newTop, newWidth, newHeight).

Definition resize_move (h : handle) (s : resize_start) (clientX clientY : Z)
    (a : Ann.t) : Ann.t :=
  let '(newLeft, newTop, newWidth, newHeight) := resize_geometry h s clientX clientY in
  Ann.set_y newTop (Ann.set_x newLeft
    (Ann.set_height newHeight (Ann.set_width newWidth a))).

(* ================================================================= *)
(** ** The editor session: annotation store and document listeners *)

(** A [mousemove]/[mouseup] listener pair registered on [document].
    - [DragListener i st]: the pair registered by
      [makeAnnotationInteractive] for [annotations[i]]; [st] is [None]
      when [isDragging] is false, [Some s] with the captured start
      values when it is true.  It is never removed.
    - [ResizeListener i h s]: [handleMouseMove]/[handleMouseUp] of one
      [startResize] call on handle [h] of [annotations[i]]; while it is
      registered its [isResizing] is true. *)
Inductive listener :=
| DragListener (i : nat) (st : option drag_start)
| ResizeListener (i : nat) (h : handle) (s : resize_start).

Record editor := Editor {
  annotations : list Ann.t;
  listeners : list listener
}.

Definition empty_editor : editor := Editor [] [].

(** [createAnnotation(type, x, y, width, height)]: [id] is the value of
    [generateAnnotationId()] and [page] the value of the global
    [currentPage] at the call.  The object is pushed and then rendered;
    rendering registers the drag listeners on [document]. *)
Definition createAnnotation (type : string) (x y width height : Z)
    (currentPage : nat) (new_id : string) (e : editor) : editor :=
  let annotation := Ann.mk new_id type x y width height currentPage [] in
  Editor (annotations e ++ [annotation])
         (listeners e ++ [DragListener (length (annotations e)) None]).

(** One listener's reaction to a [mousemove] at [(clientX, clientY)]. *)
Definition listener_move (clientX clientY : Z) (anns : list Ann.t)
    (l : listener) : list Ann.t :=
  match l with
  | DragListener _ None => anns
  | DragListener i (Some s) => alter (drag_move s clientX clientY) i anns
  | ResizeListener i h s => alter (resize_move h s clientX clientY) i anns
  end.

(** The annotation a listener acts on. *)
Definition listener_target (l : listener) : nat :=
  match l with
  | DragListener i _ => i
  | ResizeListener i _ _ => i
  end.

(** A listener that currently reacts to mouse moves, i.e. an active
    gesture. *)
Definition listener_active (l : listener) : bool :=
  match l with
  | DragListener _ None => false
  | _ => true
  end.

Definition active_gestures (e : editor) : nat :=
  length (filter (fun l => listener_active l = true) (listeners e)).

(** [mousemove] on [document]: every registered listener runs, in
    registration order. *)
Definition mouse_move (clientX clientY : Z) (e : editor) : editor :=
  Editor (fold_left (listener_move clientX clientY) (listeners e) (annotations e))
         (listeners e).

(** [mouseup] on [document]: every drag closure sets [isDragging = false];
    every resize closure sets [isResizing = false] and removes itself. *)
Definition listener_up (l : listener) : list listener :=
  match l with
  | DragListener i _ => [DragListener i None]
  | ResizeListener _ _ _ => []
  end.

Definition mouse_up (e : editor) : editor :=
  Editor (annotations e) (flat_map listener_up (listeners e)).

(** [mousedown] on the body of the element of [annotations[i]] (not on a
    resize handle): that annotation's drag closure starts dragging. *)
Definition mouse_down_body (i : nat) (clientX clientY : Z) (e : editor) : editor :=
  match annotations e !! i with
  | None => e
  | Some a =>
      Editor (annotations e)
        (map (fun l => match l with
                       | DragListener j _ =>
                           if Nat.eqb j i
                           then DragListener j (Some (drag_begin clientX clientY a))
                           else l
                       | _ => l
                       end) (listeners e))
  end.

(** [mousedown] on handle [h] of [annotations[i]]: the handle listener
    stops propagation and calls [startResize], which registers a new
    listener pair on [document]. *)
Definition mouse_down_handle (i : nat) (h : handle) (clientX clientY : Z)
    (e : editor) : editor :=
  match annotations e !! i with
  | None => e
  | Some a =>
      Editor (annotations e)
        (listeners e ++ [ResizeListener i h (resize_begin clientX clientY a)])
  end.

(** The [input] listener of a text annotation:
    [annotation.data.text = e.target.value]. *)
Definition text_input (i : nat) (value : string) (e : editor) : editor :=
  Editor (alter (fun a => Ann.set_data (js_set "text" (JStr value) (Ann.data a)) a)
                i (annotations e))
         (listeners e).

(* ================================================================= *)
(** ** Identifiers: [generateAnnotationId] *)

(** ['annotation_' + Date.now() + '_' + Math.random().toString(36).substr(2, 9)].
    [now] is the value of [Date.now()] (milliseconds, printed in decimal)
    and [random36] the string [Math.random().toString(36)], e.g.
    ["0.4fzyo82mvyr"]. *)
Definition generateAnnotationId (now : N) (random36 : string) : string :=
  "annotation_" +:+ pretty now +:+ "_" +:+ String.substring 2 9 random36.

(* ================================================================= *)
(** ** Tool actions: [addTextElement] and [addSignature] *)

(** White space removed by [String.prototype.trim] (the Latin-1 part). *)
Definition is_js_space (c : Ascii.ascii) : bool :=
  existsb (Nat.eqb (Ascii.nat_of_ascii c)) [9; 10; 11; 12; 13; 32; 160]%nat.

Fixpoint trim_start (l : list Ascii.ascii) : list Ascii.ascii :=
  match l with
  | [] => []
  | c :: l' => if is_js_space c then trim_start l' else l
  end.

Definition trim (s : string) : string :=
  String.string_of_list_ascii
    (rev (trim_start (rev (trim_start (String.list_ascii_of_string s))))).

(** The result of a tool action: the warning shown by [showNotification]
    when the action returns early, and the session afterwards. *)
Definition tool_result := (option string * editor)%type.

(** [addTextElement()] with the form values [textContent],
    [parseInt(textSize)] and [textColor]. *)
Definition addTextElement (textContent : string) (textSize : Z) (textColor : string)
    (currentPage : nat) (now : N) (random36 : string) (e : editor) : tool_result :=
  if String.eqb (trim textContent) "" then
    (Some "Please enter some text", e)
  else
    let e1 := createAnnotation "text" 100 100 200 30 currentPage
                (generateAnnotationId now random36) e in
    let i := length (annotations e) in
    (None, Editor (alter (Ann.set_data [("text", JStr textContent);
                                        ("fontSize", JNum textSize);
                                        ("color", JStr textColor)]) i
                         (annotations e1))
                  (listeners e1)).

(** [addSignature()] with [imageData = canvas.toDataURL()]. *)
Definition addSignature (imageData : string) (currentPage : nat) (now : N)
    (random36 : string) (e : editor) : tool_result :=
  if String.eqb imageData "" || String.eqb imageData "data:," then
    (Some "Please create a signature first", e)
  else
    let e1 := createAnnotation "signature" 100 100 150 75 currentPage
                (generateAnnotationId now random36) e in
    let i := length (annotations e) in
    (None, Editor (alter (Ann.set_data [("imageData", JStr imageData)]) i
                         (annotations e1))
                  (listeners e1)).

(* ================================================================= *)
(** ** All operations on the session *)

Inductive event :=
| EvCreate (type : string) (x y width height : Z) (currentPage : nat)
    (now : N) (random36 : string)
| EvAddText (textContent : string) (textSize : Z) (textColor : string)
    (currentPage : nat) (now : N) (random36 : string)
| EvAddSignature (imageData : string) (currentPage : nat) (now : N)
    (random36 : string)
| EvMouseDownBody (i : nat) (clientX clientY : Z)
| EvMouseDownHandle (i : nat) (h : handle) (clientX clientY : Z)
| EvMouseMove (clientX clientY : Z)
| EvMouseUp
| EvTextInput (i : nat) (value : string).

Definition step (ev : event) (e : editor) : editor :=
  match ev with
  | EvCreate type x y w h p now r =>
      createAnnotation type x y w h p (generateAnnotationId now r) e
  | EvAddText t sz c p now r => snd (addTextElement t sz c p now r e)
  | EvAddSignature d p now r => snd (addSignature d p now r e)
  | EvMouseDownBody i cx cy => mouse_down_body i cx cy e
  | EvMouseDownHandle i h cx cy => mouse_down_handle i h cx cy e
  | EvMouseMove cx cy => mouse_move cx cy e
  | EvMouseUp => mouse_up e
  | EvTextInput i v => text_input i v e
  end.

Fixpoint run (evs : list event) (e : editor) : editor :=
  match evs with
  | [] => e
  | ev :: evs' => run evs' (step ev e)
  end.

(* ================================================================= *)
(** ** Zoom: [zoomIn] and [zoomOut] of editor.js *)

(** [scale = Math.min(scale * 1.2, 3.0)].  The literals are the decimal
    values they denote; [Math.min]/[Math.max] return one of their
    arguments, as [Qmin]/[Qmax] do. *)
Definition zoomIn (scale : Q) : Q := Qmin (scale * 1.2) 3.0.

(** [scale = Math.max(scale / 1.2, 0.3)]. *)
Definition zoomOut (scale : Q) : Q := Qmax (scale / 1.2) 0.3.

(* ================================================================= *)
(** ** Page viewer: pdf-viewer.js *)

(** The globals the viewer reads and writes, the DOM it draws on and
    the promises it leaves pending.
    - [pending_renders]: page numbers of the [currentPDF.getPage(pageNum)]
      promises issued by [renderPage] that have not settled yet;
    - [canvas]: the page and scale last laid out on [#pdf-canvas]
      (its size and the [annotations-layer] size come from that viewport);
    - [thumbs]: the children of [#pages-list] in DOM order, as
      ([data-page], has class [active]);
    - [pending_thumbs]: page numbers of the [getPage] promises issued by
      [createPageThumbnail] that have not settled yet. *)
Record viewer := Viewer {
  currentPDF : bool;
  currentPage : nat;
  totalPages : nat;
  scale : Q;
  pending_renders : list nat;
  canvas : option (nat * Q);
  thumbs : list (nat * bool);
  pending_thumbs : list nat
}.

Definition set_currentPage (n : nat) (v : viewer) : viewer :=
  Viewer (currentPDF v) n (totalPages v) (scale v) (pending_renders v)
         (canvas v) (thumbs v) (pending_thumbs v).

(** [renderPage(pageNum)]: [if (!currentPDF) return;] then issue
    [currentPDF.getPage(pageNum)]. *)
Definition renderPage (pageNum : nat) (v : viewer) : viewer :=
  if currentPDF v then
    Viewer (currentPDF v) (currentPage v) (totalPages v) (scale v)
           (pending_renders v ++ [pageNum]) (canvas v) (thumbs v) (pending_thumbs v)
  else v.

(** The [.then(page => ...)] of the [k]-th pending [renderPage] promise:
    the viewport is taken at the value of the global [scale] at that
    moment, and the canvas is resized and drawn for that page. *)
Definition render_done (k : nat) (v : viewer) : viewer :=
  match pending_renders v !! k with
  | None => v
  | Some p =>
      Viewer (currentPDF v) (currentPage v) (totalPages v) (scale v)
             (delete k (pending_renders v)) (Some (p, scale v))
             (thumbs v) (pending_thumbs v)
  end.

(** [generatePageThumbnails()]: clear [#pages-list], then call
    [createPageThumbnail] for pages [1 .. totalPages]. *)
Definition generatePageThumbnails (v : viewer) : viewer :=
  if currentPDF v then
    Viewer (currentPDF v) (currentPage v) (totalPages v) (scale v)
           (pending_renders v) (canvas v) []
           (pending_thumbs v ++ seq 1 (totalPages v))
  else v.

(** The [.then(page => ...)] of the [k]-th pending [createPageThumbnail]
    promise: the canvas gets class [active] iff
    [pageNum === currentPage] and is appended to [#pages-list]. *)
Definition thumb_done (k : nat) (v : viewer) : viewer :=
  match pending_thumbs v !! k with
  | None => v
  | Some p =>
      Viewer (currentPDF v) (currentPage v) (totalPages v) (scale v)
             (pending_renders v) (canvas v)
             (thumbs v ++ [(p, Nat.eqb p (currentPage v))])
             (delete k (pending_thumbs v))
  end.

(** [document.querySelector(`.page-thumbnail[data-page="${currentPage}"]`)]
    selects the first thumbnail in DOM order with that page. *)
Fixpoint mark_first (cur : nat) (ts : list (nat * bool)) : list (nat * bool) :=
  match ts with
  | [] => []
  | (p, a) :: ts' => if Nat.eqb p cur then (p, true) :: ts' else (p, a) :: mark_first cur ts'
  end.

(** [updateActiveThumbnail()]: remove [active] from every thumbnail, then
    add it to the selected one. *)
Definition updateActiveThumbnail (v : viewer) : viewer :=
  Viewer (currentPDF v) (currentPage v) (totalPages v) (scale v)
         (pending_renders v) (canvas v)
         (mark_first (currentPage v) (map (fun '(p, _) => (p, false)) (thumbs v)))
         (pending_thumbs v).

(** The [.then] of [pdfjsLib.getDocument] in [loadPDF]: a document of
    [numPages] pages becomes current. *)
Definition loadPDF (numPages : nat) (v : viewer) : viewer :=
  let v1 := Viewer true 1 numPages (scale v) (pending_renders v) (canvas v)
                   (thumbs v) (pending_thumbs v) in
  generatePageThumbnails (renderPage 1 v1).

(** The click listener of the thumbnail of page [pageNum]. *)
Definition click_thumbnail (pageNum : nat) (v : viewer) : viewer :=
  let v1 := set_currentPage pageNum v in
  updateActiveThumbnail (renderPage (currentPage v1) v1).

Definition goToPage (pageNum : nat) (v : viewer) : viewer :=
  if (1 <=? pageNum)%nat && (pageNum <=? totalPages v)%nat then
    let v1 := set_currentPage pageNum v in
    updateActiveThumbnail (renderPage (currentPage v1) v1)
  else v.

Definition nextPage (v : viewer) : viewer :=
  if (currentPage v <? totalPages v)%nat then
    let v1 := set_currentPage (S (currentPage v)) v in
    updateActiveThumbnail (renderPage (currentPage v1) v1)
  else v.

Definition prevPage (v : viewer) : viewer :=
  if (1 <? currentPage v)%nat then
    let v1 := set_currentPage (pred (currentPage v)) v in
    updateActiveThumbnail (renderPage (currentPage v1) v1)
  else v.

(** [zoomIn()]/[zoomOut()] of editor.js change the global [scale] and the
    zoom label only. *)
Definition set_scale (s : Q) (v : viewer) : viewer :=
  Viewer (currentPDF v) (currentPage v) (totalPages v) s
         (pending_renders v) (canvas v) (thumbs v) (pending_thumbs v).

(** Viewer events after a document is loaded.  A thumbnail can only be
    clicked while it is in [#pages-list]. *)
Inductive vevent :=
| VRenderDone (k : nat)
| VThumbDone (k : nat)
| VClickThumb (pageNum : nat)
| VGoToPage (pageNum : nat)
| VNext
| VPrev
| VZoomIn
| VZoomOut.

Definition vstep (ev : vevent) (v : viewer) : viewer :=
  match ev with
  | VRenderDone k => render_done k v
  | VThumbDone k => thumb_done k v
  | VClickThumb p =>
      if existsb (fun '(q, _) => Nat.eqb q p) (thumbs v) then click_thumbnail p v else v
  | VGoToPage p => goToPage p v
  | VNext => nextPage v
  | VPrev => prevPage v
  | VZoomIn => set_scale (zoomIn (scale v)) v
  | VZoomOut => set_scale (zoomOut (scale v)) v
  end.

Fixpoint vrun (evs : list vevent) (v : viewer) : viewer :=
  match evs with
  | [] => v
  | ev :: evs' => vrun evs' (vstep ev v)
  end.

Definition initial_viewer : viewer := Viewer false 1 0 1.0 [] None [] [].

(* ================================================================= *)
(** ** Rendering: [renderAnnotation] and the per-type renderers *)

(** Reading [obj[k]]: the first binding of [k], [undefined] as [None]. *)
Fixpoint js_get (k : string) (o : list (string * jsval)) : option jsval :=
  match o with
  | [] => None
  | (k', v) :: o' => if String.eqb k k' then Some v else js_get k o'
  end.

(** JS truthiness of a value read from [annotation.data]. *)
Definition js_truthy (v : option jsval) : bool :=
  match v with
  | None => false
  | Some (JStr s) => negb (String.eqb s "")
  | Some (JNum n) => negb (Z.eqb n 0)
  end.

(** [v || dflt]. *)
Definition js_or (v : option jsval) (dflt : jsval) : jsval :=
  match v with
  | Some w => if js_truthy v then w else dflt
  | None => dflt
  end.

(** What a per-type renderer puts into the annotation element.
    - [TextInput value fontSize color]: the [<input>] of
      [renderTextAnnotation];
    - [SignatureImage src]: [renderSignatureAnnotation] appends an [<img>]
      only when [data.imageData] is truthy;
    - [HighlightFill color]: the [backgroundColor] set by
      [renderHighlightAnnotation];
    - [DrawingSvg html]: [renderDrawingAnnotation] sets [innerHTML] only
      when [data.svgData] is truthy;
    - [NoContent]: a type the [switch] does not list. *)
Inductive content :=
| TextInput (value fontSize color : jsval)
| SignatureImage (src : option jsval)
| HighlightFill (backgroundColor : jsval)
| DrawingSvg (innerHTML : option jsval)
| NoContent.

Record element := Element {
  className : string;
  style_left : string;
  style_top : string;
  style_width : string;
  style_height : string;
  el_content : content
}.

Definition renderTextAnnotation (a : Ann.t) : content :=
  TextInput (js_or (js_get "text" (Ann.data a)) (JStr ""))
            (js_or (js_get "fontSize" (Ann.data a)) (JNum 14))
            (js_or (js_get "color" (Ann.data a)) (JStr "#000000")).

Definition renderSignatureAnnotation (a : Ann.t) : content :=
  let v := js_get "imageData" (Ann.data a) in
  SignatureImage (if js_truthy v then v else None).

Definition renderHighlightAnnotation (a : Ann.t) : content :=
  HighlightFill (js_or (js_get "color" (Ann.data a)) (JStr "rgba(255, 193, 7, 0.3)")).

Definition renderDrawingAnnotation (a : Ann.t) : content :=
  let v := js_get "svgData" (Ann.data a) in
  DrawingSvg (if js_truthy v then v else None).

(** [renderAnnotation(annotation)] when [#annotations-layer] exists: the
    element it appends (its resize handles and listeners are the
    [DragListener] registered by [createAnnotation]). *)
Definition renderAnnotation (a : Ann.t) : element :=
  Element ("annotation " +:+ Ann.type a +:+ "-annotation")
    (pretty (Ann.x a) +:+ "px") (pretty (Ann.y a) +:+ "px")
    (pretty (Ann.width a) +:+ "px") (pretty (Ann.height a) +:+ "px")
    (if String.eqb (Ann.type a) "text" then renderTextAnnotation a
     else if String.eqb (Ann.type a) "signature" then renderSignatureAnnotation a
     else if String.eqb (Ann.type a) "highlight" then renderHighlightAnnotation a
     else if String.eqb (Ann.type a) "drawing" then renderDrawingAnnotation a
     else NoContent).

(** The element [createAnnotation] appends: [renderAnnotation] runs on the
    object just pushed, before the caller assigns [annotation.data]. *)
Definition created_element (type : string) (x y width height : Z)
    (currentPage : nat) (new_id : string) (e : editor) : option element :=
  renderAnnotation <$> last (annotations (createAnnotation type x y width height
                                            currentPage new_id e)).

(* ================================================================= *)
(** ** Predicates on editor and viewer states *)

(** What one listener's [mousemove] handler does to the annotation it
    belongs to. *)
Definition gesture_effect (clientX clientY : Z) (o : option Ann.t) (l : listener)
    : option Ann.t :=
  match l with
  | DragListener _ None => o
  | DragListener _ (Some s) => drag_move s clientX clientY <$> o
  | ResizeListener _ h s => resize_move h s clientX clientY <$> o
  end.

(** Every annotation is at least 20 by 20. *)
Definition sizes_ok (e : editor) : Prop :=
  Forall (fun a => 20 <= Ann.width a /\ 20 <= Ann.height a) (annotations e).

(** A direct [createAnnotation] call with a size of at least 20 by 20
    (the tool actions use 200 by 30 and 150 by 75). *)
Definition create_size_ok (ev : event) : Prop :=
  match ev with
  | EvCreate _ _ _ w h _ _ _ => 20 <= w /\ 20 <= h
  | _ => True
  end.

(** The list of annotation indices of the drag listener pairs, in
    registration order. *)
Fixpoint drag_targets (ls : list listener) : list nat :=
  match ls with
  | [] => []
  | DragListener i _ :: ls' => i :: drag_targets ls'
  | ResizeListener _ _ _ :: ls' => drag_targets ls'
  end.

(** The viewer before any document is loaded. *)
Definition unloaded (v : viewer) : Prop :=
  currentPDF v = false /\ currentPage v = 1%nat /\ totalPages v = 0%nat /\
  pending_renders v = [] /\ canvas v = None /\ thumbs v = [] /\ pending_thumbs v = [].

(* ================================================================= *)
(** * Properties *)

(** The table of the anchored-corner rule, written as the spec has it. *)
Definition resize_table (h : handle) (x0 y0 w0 h0 dx dy : Z) : Z * Z * Z * Z :=
  match h with
  | TopLeft => (Z.max (w0 - dx) 20, Z.max (h0 - dy) 20, x0 + dx, y0 + dy)
  | TopRight => (Z.max (w0 + dx) 20, Z.max (h0 - dy) 20, x0, y0 + dy)
  | BottomLeft => (Z.max (w0 - dx) 20, Z.max (h0 + dy) 20, x0 + dx, y0)
  | BottomRight => (Z.max (w0 + dx) 20, Z.max (h0 + dy) 20, x0, y0)
  end.

(** ** C1 *)

(** Claim C1: a resize gesture started on handle [h] of an annotation of
    geometry [(x0, y0, w0, h0)] at pointer [(sx, sy)] sets, on every later
    pointer move to [(sx + dx, sy + dy)], the annotation's
    [(width, height, x, y)] to the handle's row of the anchored-corner
    table, width and height floored at 20 with the position left as the
    table gives it; from [(100, 100, 200, 30)] the bottom-right handle
    moved by [(50, -40)] gives [x = 100, y = 100, width = 250, height = 20]. *)
Theorem resize_move_anchored_corner :
  (forall (h : handle) (a0 a : Ann.t) (sx sy dx dy : Z),
     let a' := resize_move h (resize_begin sx sy a0) (sx + dx) (sy + dy) a in
     (Ann.width a', Ann.height a', Ann.x a', Ann.y a') =
       resize_table h (Ann.x a0) (Ann.y a0) (Ann.width a0) (Ann.height a0) dx dy) /\
  (let a0 := Ann.mk "a" "text" 100 100 200 30 1 [] in
   let a' := resize_move BottomRight (resize_begin 0 0 a0) 50 (-40) a0 in
   (Ann.x a', Ann.y a', Ann.width a', Ann.height a') = (100, 100, 250, 20)).
Proof.
  split.
  - intros h a0 a sx sy dx dy.
    assert (Hx : sx + dx - sx = dx) by lia.
    assert (Hy : sy + dy - sy = dy) by lia.
    destruct h; cbn; rewrite Hx, Hy; reflexivity.
  - reflexivity.
Qed.

(** ** C2 *)

(** Claim C2: a drag started on an annotation at [(x0, y0)] with the
    pointer at [(sx, sy)] sets, on every pointer move to
    [(sx + dx, sy + dy)], the position to [(x0 + dx, y0 + dy)] with no
    clamping and width and height unchanged; and in the session, an
    annotation created at [(50, 60)] and dragged by [(15, -5)] is at
    [(65, 55)] right after that mousemove, with its size unchanged. *)
Theorem drag_move_position :
  (forall (a0 a : Ann.t) (sx sy dx dy : Z),
     let a' := drag_move (drag_begin sx sy a0) (sx + dx) (sy + dy) a in
     Ann.x a' = Ann.x a0 + dx /\ Ann.y a' = Ann.y a0 + dy /\
     Ann.width a' = Ann.width a /\ Ann.height a' = Ann.height a) /\
  (let e0 := createAnnotation "highlight" 50 60 120 40 1 "a1" empty_editor in
   let e1 := mouse_move 315 195 (mouse_down_body 0 300 200 e0) in
   map (fun a => (Ann.x a, Ann.y a, Ann.width a, Ann.height a)) (annotations e1)
     = [(65, 55, 120, 40)]).
Proof.
  split.
  - intros a0 a sx sy dx dy; cbn; repeat split; lia.
  - reflexivity.
Qed.

(** ** C3 *)

(** Claim C3 (as stated): [createAnnotation] takes no payload and
    validates nothing; a [signature] annotation with no [imageData] is
    appended to the store for page 1. *)
Lemma createAnnotation_no_payload_check :
  annotations (createAnnotation "signature" 10 10 50 50 1
                 (generateAnnotationId 1700000000000 "0.k3j9x") empty_editor)
  = [Ann.mk "annotation_1700000000000_k3j9x" "signature" 10 10 50 50 1 []].
Proof. reflexivity. Qed.

(** Claim C3 (amended): [createAnnotation] takes no payload and
    validates nothing: for every input it appends one annotation with
    empty [data] on the given page.  The payload is validated by the tool
    actions.  [addSignature] rejects an [imageData] equal to [''] or
    ['data:,'] and [addTextElement] rejects a text whose [trim()] is
    empty: each shows a warning and leaves the store and listeners
    unchanged.  With a valid payload each appends exactly one annotation,
    carrying that payload. *)
Theorem tool_actions_validate_payload :
  (forall imageData p now r e,
     imageData = "" \/ imageData = "data:," ->
     addSignature imageData p now r e = (Some "Please create a signature first", e)) /\
  (forall t sz c p now r e,
     trim t = "" ->
     addTextElement t sz c p now r e = (Some "Please enter some text", e)) /\
  (forall imageData p now r e,
     imageData <> "" -> imageData <> "data:," ->
     exists e', addSignature imageData p now r e = (None, e') /\
       annotations e' = annotations e ++
         [Ann.mk (generateAnnotationId now r) "signature" 100 100 150 75 p
                 [("imageData", JStr imageData)]]) /\
  (forall t sz c p now r e,
     trim t <> "" ->
     exists e', addTextElement t sz c p now r e = (None, e') /\
       annotations e' = annotations e ++
         [Ann.mk (generateAnnotationId now r) "text" 100 100 200 30 p
                 [("text", JStr t); ("fontSize", JNum sz); ("color", JStr c)]]) /\
  (forall type x y w h p nid e,
     annotations (createAnnotation type x y w h p nid e)
       = annotations e ++ [Ann.mk nid type x y w h p []]).
Proof.
  split; [|split; [|split; [|split]]].
  - intros imageData p now r e [-> | ->]; reflexivity.
  - intros t sz c p now r e Ht. unfold addTextElement. rewrite Ht. reflexivity.
  - intros imageData p now r e H1 H2. unfold addSignature.
    apply String.eqb_neq in H1, H2. rewrite H1, H2. cbn.
    eexists; split; [reflexivity|]. cbn.
    rewrite alter_app_r_alt by lia. rewrite Nat.sub_diag. reflexivity.
  - intros t sz c p now r e Ht. unfold addTextElement.
    apply String.eqb_neq in Ht. rewrite Ht. cbn.
    eexists; split; [reflexivity|]. cbn.
    rewrite alter_app_r_alt by lia. rewrite Nat.sub_diag. reflexivity.
  - intros. reflexivity.
Qed.

Lemma drag_targets_app (l1 l2 : list listener) :
  drag_targets (l1 ++ l2) = drag_targets l1 ++ drag_targets l2.
Proof. induction l1 as [|[i st|i h s] l1 IH]; cbn; by rewrite ?IH. Qed.

Lemma length_fold_listener_move (cx cy : Z) (ls : list listener) (anns : list Ann.t) :
  length (fold_left (listener_move cx cy) ls anns) = length anns.
Proof.
  revert anns. induction ls as [|l ls IH]; intros anns; cbn; [reflexivity|].
  rewrite IH. destruct l as [i [s|]|i h s]; cbn; by rewrite ?length_alter.
Qed.

Lemma step_drag_targets (ev : event) (e : editor) :
  drag_targets (listeners e) = seq 0 (length (annotations e)) ->
  drag_targets (listeners (step ev e)) = seq 0 (length (annotations (step ev e))).
Proof.
  intros H.
  assert (Hc : forall ty x y w h p nid,
            drag_targets (listeners (createAnnotation ty x y w h p nid e))
            = seq 0 (S (length (annotations e)))).
  { intros. cbn [listeners createAnnotation annotations]. rewrite drag_targets_app, H, seq_S. reflexivity. }
  destruct ev as [ty x y w h p now r | t sz c p now r | d p now r
                 | j cx cy | j hd cx cy | cx cy | | j v]; unfold step.
  - rewrite Hc. cbn [annotations createAnnotation]. rewrite length_app. cbn [length].
    rewrite Nat.add_1_r. reflexivity.
  - unfold addTextElement. case_match; cbn [snd]; [exact H|].
    cbn [listeners annotations createAnnotation].
    rewrite drag_targets_app, H, length_alter, length_app. cbn [length].
    rewrite Nat.add_1_r, seq_S. reflexivity.
  - unfold addSignature. case_match; cbn [snd]; [exact H|].
    cbn [listeners annotations createAnnotation].
    rewrite drag_targets_app, H, length_alter, length_app. cbn [length].
    rewrite Nat.add_1_r, seq_S. reflexivity.
  - unfold mouse_down_body. destruct (annotations e !! j) as [a|]; [|exact H].
    cbn [listeners annotations].
    rewrite <- H. clear H. induction (listeners e) as [|[i st|i h s] ls IH]; cbn;
      [reflexivity| |exact IH].
    destruct (Nat.eqb i j); cbn; by rewrite IH.
  - unfold mouse_down_handle. destruct (annotations e !! j) as [a|]; [|exact H].
    cbn [listeners annotations].
    rewrite drag_targets_app, H. cbn. rewrite app_nil_r. reflexivity.
  - unfold mouse_move. cbn [listeners annotations].
    rewrite length_fold_listener_move. exact H.
  - unfold mouse_up. cbn [listeners annotations].
    rewrite <- H. clear H. induction (listeners e) as [|[i st|i h s] ls IH]; cbn;
      [reflexivity| by rewrite IH | exact IH].
  - unfold text_input. cbn [listeners annotations]. rewrite length_alter. exact H.
Qed.

Lemma run_drag_targets (evs : list event) :
  forall e, drag_targets (listeners e) = seq 0 (length (annotations e)) ->
  drag_targets (listeners (run evs e)) = seq 0 (length (annotations (run evs e))).
Proof.
  induction evs as [|ev evs IH]; intros e H; cbn; [exact H|].
  apply IH, step_drag_targets, H.
Qed.

Lemma filter_eq_seq (i n : nat) :
  (i < n)%nat -> length (filter (fun j => j = i) (seq 0 n)) = 1%nat.
Proof.
  assert (Hnil : forall l, i ∉ l -> filter (fun j => j = i) l = []).
  { induction l as [|j l IH]; intros Hl; [reflexivity|].
    apply not_elem_of_cons in Hl as [Hj Hl].
    rewrite filter_cons_False by congruence. by apply IH. }
  induction n as [|n IH]; intros Hi; [lia|].
  rewrite seq_S, filter_app, length_app. cbn [plus].
  destruct (decide (i = n)) as [->|Hne].
  - rewrite Hnil; [|rewrite elem_of_seq; lia].
    rewrite (filter_singleton _ n []). case_decide; [reflexivity|congruence].
  - rewrite IH by lia. rewrite (filter_singleton _ n []). case_decide; [congruence|reflexivity].
Qed.

Lemma mouse_down_body_count (i : nat) (d : drag_start) (ls : list listener) :
  (forall s, DragListener i (Some s) ∉ ls) ->
  length (filter (fun l => listener_active l = true)
    (map (fun l => match l with
                   | DragListener j _ =>
                       if Nat.eqb j i then DragListener j (Some d) else l
                   | _ => l
                   end) ls))
  = (length (filter (fun l => listener_active l = true) ls)
     + length (filter (fun j => j = i) (drag_targets ls)))%nat.
Proof.
  induction ls as [|l ls IH]; intros Hn; [reflexivity|].
  assert (Hn' : forall s, DragListener i (Some s) ∉ ls).
  { intros s Hs. apply (Hn s). apply elem_of_cons. by right. }
  destruct l as [j st|j h s]; cbn [map drag_targets]; rewrite !filter_cons.
  - destruct (Nat.eqb_spec j i) as [->|Hne].
    + destruct st as [s|].
      { exfalso. apply (Hn s). apply elem_of_cons. by left. }
      repeat case_decide; cbn [length]; rewrite ?IH by exact Hn';
      cbn [listener_active] in *; congruence || lia.
    + repeat case_decide; cbn [length]; rewrite ?IH by exact Hn';
      cbn [listener_active] in *; congruence || lia.
  - repeat case_decide; cbn [length]; rewrite ?IH by exact Hn';
      cbn [listener_active] in *; congruence || lia.
Qed.

Lemma listener_move_lookup (cx cy : Z) (anns : list Ann.t) (l : listener) (i : nat) :
  listener_move cx cy anns l !! i
  = if decide (listener_active l = true /\ listener_target l = i)
    then gesture_effect cx cy (anns !! i) l else anns !! i.
Proof.
  destruct l as [j [s|]|j h s]; cbn [listener_move listener_active listener_target gesture_effect].
  - rewrite list_lookup_alter. destruct (decide (j = i)) as [->|Hne].
    + rewrite decide_True by auto. reflexivity.
    + rewrite decide_False by (intros [_ ?]; congruence). reflexivity.
  - rewrite decide_False by (intros [? _]; discriminate). reflexivity.
  - rewrite list_lookup_alter. destruct (decide (j = i)) as [->|Hne].
    + rewrite decide_True by auto. reflexivity.
    + rewrite decide_False by (intros [_ ?]; congruence). reflexivity.
Qed.

Lemma fold_listener_move_lookup (cx cy : Z) (i : nat) (ls : list listener) :
  forall anns : list Ann.t,
  fold_left (listener_move cx cy) ls anns !! i
  = fold_left (gesture_effect cx cy)
      (filter (fun l => listener_active l = true /\ listener_target l = i) ls) (anns !! i).
Proof.
  induction ls as [|l ls IH]; intros anns; [reflexivity|].
  cbn [fold_left]. rewrite IH, filter_cons, listener_move_lookup.
  case_decide; reflexivity.
Qed.

(** ** C4 *)

(** Two annotations on page 1, created by [createAnnotation]. *)
Definition two_annotations : editor :=
  createAnnotation "highlight" 200 100 50 50 1 "a2"
    (createAnnotation "highlight" 100 100 50 50 1 "a1" empty_editor).

(** Claim C4 (as stated): a pointer-down on a second annotation while a
    drag is active is not ignored: two drags are then active, and the
    next pointer move moves both annotations. *)
Lemma second_pointer_down_not_ignored :
  let e1 := mouse_down_body 0 0 0 two_annotations in
  let e2 := mouse_down_body 1 0 0 e1 in
  active_gestures e1 = 1%nat /\ active_gestures e2 = 2%nat /\
  map (fun a => (Ann.x a, Ann.y a)) (annotations (mouse_move 10 10 e2))
    = [(110, 110); (210, 110)].
Proof. repeat split. Qed.

Lemma filter_flat_map_listener_up (ls : list listener) :
  filter (fun l => listener_active l = true) (flat_map listener_up ls) = [].
Proof. induction ls as [|[i st|i h s] ls IH]; cbn; auto. Qed.

(** Claim C4 (amended): there is no global gesture slot.  A pointer-up
    ends every active gesture.  A pointer-down on a resize handle of an
    annotation always starts one more gesture, and in every session a
    pointer-down on the body of an annotation that is not already being
    dragged starts one more gesture, whatever other gestures are active.
    On each pointer-move every active gesture reacts: each annotation
    becomes the result of applying, in registration order, the handlers
    of all active gestures that belong to it. *)
Theorem gestures_not_exclusive :
  (forall e, active_gestures (mouse_up e) = 0%nat) /\
  (forall e i h cx cy a,
     annotations e !! i = Some a ->
     active_gestures (mouse_down_handle i h cx cy e) = S (active_gestures e)) /\
  (forall evs i cx cy a,
     let e := run evs empty_editor in
     annotations e !! i = Some a ->
     (forall s, DragListener i (Some s) ∉ listeners e) ->
     active_gestures (mouse_down_body i cx cy e) = S (active_gestures e)) /\
  (forall e cx cy i,
     annotations (mouse_move cx cy e) !! i
     = fold_left (gesture_effect cx cy)
         (filter (fun l => listener_active l = true /\ listener_target l = i) (listeners e))
         (annotations e !! i)).
Proof.
  split; [|split; [|split]].
  - intros e. unfold active_gestures, mouse_up; cbn.
    rewrite filter_flat_map_listener_up. reflexivity.
  - intros e i h cx cy a Ha. unfold active_gestures, mouse_down_handle.
    rewrite Ha; cbn [listeners]. rewrite filter_app, length_app. simpl. lia.
  - intros evs i cx cy a e Ha Hn.
    pose proof (run_drag_targets evs empty_editor eq_refl) as Hd. fold e in Hd.
    assert (Hi : (i < length (annotations e))%nat) by (apply lookup_lt_Some in Ha; exact Ha).
    unfold active_gestures, mouse_down_body. rewrite Ha. cbn [listeners].
    rewrite mouse_down_body_count by exact Hn.
    rewrite Hd, filter_eq_seq by exact Hi. lia.
  - intros e cx cy i. unfold mouse_move. cbn [annotations listeners].
    apply fold_listener_move_lookup.
Qed.

(** ** C10 *)

(** Claim C10: one gesture step (the mousemove handler of one drag or
    resize closure) changes only the annotation it belongs to; every
    other entry of the store is unchanged, and the changed one keeps its
    [id], [type], [page] and [data]; a drag step also keeps its
    [width] and [height], so it changes only [x] and [y]. *)
Theorem gesture_step_frame :
  forall (l : listener) (clientX clientY : Z) (anns : list Ann.t) (j : nat),
    (j <> listener_target l ->
       listener_move clientX clientY anns l !! j = anns !! j) /\
    (forall a, anns !! j = Some a ->
       exists a', listener_move clientX clientY anns l !! j = Some a' /\
         Ann.id a' = Ann.id a /\ Ann.type a' = Ann.type a /\
         Ann.page a' = Ann.page a /\ Ann.data a' = Ann.data a /\
         match l with
         | DragListener _ _ => Ann.width a' = Ann.width a /\ Ann.height a' = Ann.height a
         | ResizeListener _ _ _ => True
         end).
Proof.
  intros l cx cy anns j. split.
  - intros Hj. destruct l as [i [s|] | i h s]; cbn in *;
      [apply list_lookup_alter_ne; congruence | reflexivity |
       apply list_lookup_alter_ne; congruence].
  - intros a Ha. destruct l as [i [s|] | i h s]; cbn.
    + destruct (decide (i = j)) as [<-|Hne].
      * rewrite list_lookup_alter_eq, Ha. cbn. eexists; repeat split.
      * rewrite list_lookup_alter_ne by done. eexists; split; [exact Ha|]. repeat split.
    + eexists; split; [exact Ha|]. repeat split.
    + destruct (decide (i = j)) as [<-|Hne].
      * rewrite list_lookup_alter_eq, Ha. cbn.
        unfold resize_move. destruct (resize_geometry h s cx cy) as [[[? ?] ?] ?].
        eexists; repeat split.
      * rewrite list_lookup_alter_ne by done. eexists; split; [exact Ha|]. repeat split.
Qed.

(** ** C5 *)

(** Claim C5 (as stated): on a 3-page document, navigating to page 2
    while the render of page 1 is in flight, then letting the page-2
    render complete before the page-1 one, leaves page 1 on the canvas
    while [currentPage] is 2: the stale completion is not discarded. *)
Lemma stale_render_overwrites_newer_page :
  let v1 := goToPage 2 (loadPDF 3 initial_viewer) in
  let v2 := render_done 1 v1 in
  let v3 := render_done 0 v2 in
  pending_renders v1 = [1; 2]%nat /\
  canvas v2 = Some (2%nat, 1.0%Q) /\
  currentPage v3 = 2%nat /\ canvas v3 = Some (1%nat, 1.0%Q).
Proof. repeat split. Qed.

(** Claim C5 (amended): [renderPage] keeps no render generation: the
    completion of any pending [getPage] promise lays the canvas out for
    its own page at the scale current when it completes, whatever page
    is current and whatever other renders are pending; and a zoom
    change issues no render. *)
Theorem render_completion_not_superseded :
  (forall v k p,
     pending_renders v !! k = Some p ->
     canvas (render_done k v) = Some (p, scale v) /\
     pending_renders (render_done k v) = delete k (pending_renders v)) /\
  (forall v, pending_renders (vstep VZoomIn v) = pending_renders v /\
             pending_renders (vstep VZoomOut v) = pending_renders v).
Proof.
  split.
  - intros v k p Hk. unfold render_done. rewrite Hk. split; reflexivity.
  - intros v. split; reflexivity.
Qed.

(** ** C6 *)

(** No underscore in a string. *)
Fixpoint no_underscore (s : string) : bool :=
  match s with
  | EmptyString => true
  | String c s' => negb (Ascii.eqb c "_"%char) && no_underscore s'
  end.

Lemma pretty_N_char_not_underscore (n : N) : Ascii.eqb (pretty_N_char n) "_"%char = false.
Proof. unfold pretty_N_char. repeat case_match; reflexivity. Qed.

Lemma pretty_N_go_no_underscore (x : N) (s : string) :
  no_underscore s = true -> no_underscore (pretty_N_go x s) = true.
Proof.
  revert s. induction (N.lt_wf_0 x) as [x _ IH]; intros s Hs.
  destruct (decide (0 < x)%N) as [Hx|Hx].
  - rewrite pretty_N_go_step by done. apply IH.
    + apply N.div_lt; lia.
    + cbn. rewrite pretty_N_char_not_underscore, Hs. reflexivity.
  - assert (x = 0%N) as -> by lia. rewrite pretty_N_go_0. exact Hs.
Qed.

Lemma pretty_N_no_underscore (n : N) : no_underscore (pretty n) = true.
Proof.
  unfold pretty, pretty_N. case_decide; [reflexivity|].
  apply pretty_N_go_no_underscore. reflexivity.
Qed.

Lemma split_at_underscore (a b c d : string) :
  no_underscore a = true -> no_underscore c = true ->
  a +:+ String "_"%char b = c +:+ String "_"%char d -> a = c /\ b = d.
Proof.
  revert c. induction a as [|x a IH]; intros [|y c] Ha Hc H; cbn in *.
  - injection H as ->. split; reflexivity.
  - injection H as <- _. discriminate Hc.
  - injection H as -> _. discriminate Ha.
  - apply andb_prop in Ha as [_ Ha]. apply andb_prop in Hc as [_ Hc].
    injection H as -> H. destruct (IH c Ha Hc H) as [-> ->]. split; reflexivity.
Qed.

(** Claim C6 (as stated): [generateAnnotationId] only uses the
    millisecond clock and nine base-36 digits of [Math.random()]; two
    creations in the same millisecond whose random strings agree on those
    digits get the same id. *)
Lemma same_tick_ids_collide :
  let e := run [EvCreate "text" 100 100 200 30 1 1700000000000 "0.4fzyo82mvyr";
                EvCreate "text" 100 100 200 30 1 1700000000000 "0.4fzyo82mvab"]
               empty_editor in
  map Ann.id (annotations e)
    = ["annotation_1700000000000_4fzyo82mv"; "annotation_1700000000000_4fzyo82mv"].
Proof. reflexivity. Qed.

(** Claim C6 (amended): two generated ids are equal only when both the
    [Date.now()] values and the nine-digit random suffixes are equal;
    ids of creations that differ in timestamp or suffix are distinct. *)
Theorem generateAnnotationId_inj :
  forall (now1 now2 : N) (r1 r2 : string),
    generateAnnotationId now1 r1 = generateAnnotationId now2 r2 ->
    now1 = now2 /\ String.substring 2 9 r1 = String.substring 2 9 r2.
Proof.
  intros now1 now2 r1 r2 H. unfold generateAnnotationId in H. cbn in H.
  repeat (injection H as H).
  apply split_at_underscore in H; [|apply pretty_N_no_underscore..].
  destruct H as [Hp Hs]. split; [|exact Hs].
  exact (inj pretty _ _ Hp).
Qed.

(** ** C7 *)

(** A sequence of zoom operations: [true] is [zoomIn()], [false] is
    [zoomOut()]. *)
Fixpoint zoom_seq (ops : list bool) (s : Q) : Q :=
  match ops with
  | [] => s
  | true :: ops' => zoom_seq ops' (zoomIn s)
  | false :: ops' => zoom_seq ops' (zoomOut s)
  end.

Lemma zoomIn_range (s : Q) : (0.3 <= s <= 3.0)%Q -> (0.3 <= zoomIn s <= 3.0)%Q.
Proof.
  intros [H1 H2]. unfold zoomIn. split.
  - apply Q.min_glb; [|unfold Qle; cbn; lia].
    apply Qle_trans with (0.3 * 1.2)%Q; [unfold Qle; cbn; lia|].
    apply Qmult_le_compat_r; [exact H1|unfold Qle; cbn; lia].
  - apply Q.le_min_r.
Qed.

Lemma zoomOut_range (s : Q) : (0.3 <= s <= 3.0)%Q -> (0.3 <= zoomOut s <= 3.0)%Q.
Proof.
  intros [H1 H2]. unfold zoomOut. split.
  - apply Q.le_max_r.
  - apply Q.max_lub; [|unfold Qle; cbn; lia].
    apply Qle_trans with (3.0 / 1.2)%Q; [|unfold Qle; cbn; lia].
    apply Qmult_le_compat_r; [exact H2|unfold Qle; cbn; lia].
Qed.

(** Claim C7: from any scale in [[0.3, 3.0]], every sequence of
    [zoomIn]/[zoomOut] keeps the scale in [[0.3, 3.0]]; at the bounds
    [zoomIn 3.0 = 3.0] and [zoomOut 0.3 = 0.3] (a silent no-op); and
    from [1.0], each of the first 50 [zoomIn]s stays at most [3.0] and
    each of the first 50 [zoomOut]s stays at least [0.3]. *)
Theorem zoom_scale_in_range :
  (forall (ops : list bool) (s : Q),
     (0.3 <= s <= 3.0)%Q -> (0.3 <= zoom_seq ops s <= 3.0)%Q) /\
  zoomIn 3.0 = 3.0%Q /\ zoomOut 0.3 = 0.3%Q /\
  (forall k : nat, (k <= 50)%nat ->
     (Nat.iter k zoomIn 1.0 <= 3.0)%Q /\ (0.3 <= Nat.iter k zoomOut 1.0)%Q).
Proof.
  assert (Hseq : forall (ops : list bool) (s : Q),
     (0.3 <= s <= 3.0)%Q -> (0.3 <= zoom_seq ops s <= 3.0)%Q).
  { induction ops as [|[] ops IH]; intros s Hs; cbn.
    - exact Hs.
    - apply IH, zoomIn_range, Hs.
    - apply IH, zoomOut_range, Hs. }
  split; [exact Hseq|]. split; [reflexivity|]. split; [reflexivity|].
  intros k _.
  assert (Hin : forall j, (0.3 <= Nat.iter j zoomIn 1.0 <= 3.0)%Q).
  { induction j as [|j IH]; cbn; [unfold Qle; cbn; lia|apply zoomIn_range, IH]. }
  assert (Hout : forall j, (0.3 <= Nat.iter j zoomOut 1.0 <= 3.0)%Q).
  { induction j as [|j IH]; cbn; [unfold Qle; cbn; lia|apply zoomOut_range, IH]. }
  split; [apply Hin|apply Hout].
Qed.

(** ** C9 *)

Lemma listener_move_keeps_entries (cx cy : Z) (anns : list Ann.t) (l : listener)
    (i : nat) (a : Ann.t) :
  anns !! i = Some a ->
  exists a', listener_move cx cy anns l !! i = Some a' /\ Ann.id a' = Ann.id a.
Proof.
  intros Ha. destruct l as [j [s|] | j h s]; cbn.
  - rewrite list_lookup_alter. case_decide; subst; rewrite Ha; eexists; split; reflexivity.
  - exists a. split; [exact Ha|reflexivity].
  - rewrite list_lookup_alter. case_decide; subst; rewrite Ha; [|eexists; split; reflexivity].
    unfold resize_move. destruct (resize_geometry h s cx cy) as [[[? ?] ?] ?].
    eexists; split; reflexivity.
Qed.

Lemma fold_listener_move_keeps_entries (cx cy : Z) (ls : list listener) :
  forall (anns : list Ann.t) (i : nat) (a : Ann.t),
  anns !! i = Some a ->
  exists a', fold_left (listener_move cx cy) ls anns !! i = Some a' /\ Ann.id a' = Ann.id a.
Proof.
  induction ls as [|l ls IH]; intros anns i a Ha; cbn.
  - exists a. split; [exact Ha|reflexivity].
  - destruct (listener_move_keeps_entries cx cy anns l i a Ha) as (a1 & H1 & E1).
    destruct (IH _ _ _ H1) as (a2 & H2 & E2).
    exists a2. split; [exact H2|congruence].
Qed.

Lemma create_keeps_entries type x y w h p nid (e : editor) (i : nat) (a : Ann.t) :
  annotations e !! i = Some a ->
  annotations (createAnnotation type x y w h p nid e) !! i = Some a.
Proof. intros Ha. cbn. rewrite lookup_app_l; [exact Ha|]. by eapply lookup_lt_Some. Qed.

Lemma alter_new_keeps_entries f type x y w h p nid (e : editor) (i : nat) (a : Ann.t) :
  annotations e !! i = Some a ->
  alter f (length (annotations e)) (annotations (createAnnotation type x y w h p nid e)) !! i
    = Some a.
Proof.
  intros Ha. rewrite list_lookup_alter_ne.
  - by apply create_keeps_entries.
  - apply lookup_lt_Some in Ha. lia.
Qed.

(** Every operation of the editor keeps every annotation of the store
    at its index, with its id. *)
Lemma step_keeps_entries (ev : event) (e : editor) (i : nat) (a : Ann.t) :
  annotations e !! i = Some a ->
  exists a', annotations (step ev e) !! i = Some a' /\ Ann.id a' = Ann.id a.
Proof.
  intros Ha. destruct ev as [ty x y w h p now r | t sz c p now r | d p now r
                           | j cx cy | j hd cx cy | cx cy | | j v]; cbn.
  - exists a. split; [by apply create_keeps_entries|reflexivity].
  - unfold addTextElement. case_match; cbn.
    + exists a. split; [exact Ha|reflexivity].
    + exists a. split; [by apply alter_new_keeps_entries|reflexivity].
  - unfold addSignature. case_match; cbn.
    + exists a. split; [exact Ha|reflexivity].
    + exists a. split; [by apply alter_new_keeps_entries|reflexivity].
  - exists a. split; [|reflexivity].
    unfold mouse_down_body. destruct (annotations e !! j); exact Ha.
  - exists a. split; [|reflexivity].
    unfold mouse_down_handle. destruct (annotations e !! j); exact Ha.
  - by apply fold_listener_move_keeps_entries.
  - exists a. split; [exact Ha|reflexivity].
  - rewrite list_lookup_alter. case_decide; subst; rewrite Ha; eexists; split; reflexivity.
Qed.

Lemma run_keeps_entries (evs : list event) :
  forall (e : editor) (i : nat) (a : Ann.t),
  annotations e !! i = Some a ->
  exists a', annotations (run evs e) !! i = Some a' /\ Ann.id a' = Ann.id a.
Proof.
  induction evs as [|ev evs IH]; intros e i a Ha; cbn.
  - exists a. split; [exact Ha|reflexivity].
  - destruct (step_keeps_entries ev e i a Ha) as (a1 & H1 & E1).
    destruct (IH _ _ _ H1) as (a2 & H2 & E2).
    exists a2. split; [exact H2|congruence].
Qed.

(** Claim C9 (as stated): the editor has no update or delete operation on
    the store; no sequence of its operations removes an annotation, so
    the annotation with id ["a1"] can never be deleted. *)
Lemma no_operation_deletes_annotation :
  ~ exists evs : list event,
      Forall (fun a => Ann.id a <> "a1")
        (annotations (run evs (createAnnotation "text" 100 100 200 30 1 "a1" empty_editor))).
Proof.
  intros [evs Hall].
  destruct (run_keeps_entries evs (createAnnotation "text" 100 100 200 30 1 "a1" empty_editor)
              0 (Ann.mk "a1" "text" 100 100 200 30 1 []) eq_refl) as (a' & Ha' & Eid).
  rewrite Forall_lookup in Hall. exact (Hall 0%nat a' Ha' Eid).
Qed.

(** Claim C9 (amended): the store has no id-keyed update or delete: its
    operations (create, the tool actions, drag and resize steps, text
    input) only append annotations or mutate them in place, so after any
    sequence of them every annotation present before is still at its
    index with the same id. *)
Theorem store_only_grows :
  forall (evs : list event) (e : editor) (i : nat) (a : Ann.t),
    annotations e !! i = Some a ->
    exists a', annotations (run evs e) !! i = Some a' /\ Ann.id a' = Ann.id a.
Proof. intros evs e i a Ha. exact (run_keeps_entries evs e i a Ha). Qed.

(** ** C8 *)


















(* ================================================================= *)
(** * Witnesses: the theorems applied at concrete inputs *)

(** [addSignature] with an empty [imageData] on the empty store, page 1. *)
Lemma tool_actions_validate_payload_witness :
  ("" = "" \/ "" = "data:,") /\
  addSignature "" 1 1700000000000 "0.k3j9x" empty_editor
    = (Some "Please create a signature first", empty_editor).
Proof.
  split; [left; reflexivity|].
  apply (proj1 tool_actions_validate_payload). left; reflexivity.
Defined.

(** Two highlights created in a session; the first is being dragged when
    the body of the second is pressed. *)
Lemma gestures_not_exclusive_witness :
  let evs := [EvCreate "highlight" 100 100 50 50 1 1700000000000 "0.4fzyo82mvyr";
              EvCreate "highlight" 200 100 50 50 1 1700000000001 "0.9k2mq7x1abc";
              EvMouseDownBody 0 0 0] in
  annotations (run evs empty_editor) !! 1%nat
    = Some (Ann.mk (generateAnnotationId 1700000000001 "0.9k2mq7x1abc")
              "highlight" 200 100 50 50 1 []) /\
  (forall s, DragListener 1 (Some s) ∉ listeners (run evs empty_editor)) /\
  active_gestures (run evs empty_editor) = 1%nat /\
  active_gestures (mouse_down_body 1 0 0 (run evs empty_editor)) = 2%nat.
Proof.
  intros evs.
  assert (Ha : annotations (run evs empty_editor) !! 1%nat
                 = Some (Ann.mk (generateAnnotationId 1700000000001 "0.9k2mq7x1abc")
                           "highlight" 200 100 50 50 1 [])) by reflexivity.
  assert (Hn : forall s, DragListener 1 (Some s) ∉ listeners (run evs empty_editor)).
  { intros s Hs. cbn in Hs.
    repeat (apply elem_of_cons in Hs as [Hs|Hs]; [discriminate|]).
    by apply elem_of_nil in Hs. }
  split; [exact Ha|]. split; [exact Hn|]. split; [reflexivity|].
  exact (proj1 (proj2 (proj2 gestures_not_exclusive)) evs 1%nat 0 0 _ Ha Hn).
Defined.

Lemma render_completion_not_superseded_witness :
  pending_renders (goToPage 2 (loadPDF 3 initial_viewer)) !! 0%nat = Some 1%nat /\
  canvas (render_done 0 (goToPage 2 (loadPDF 3 initial_viewer)))
    = Some (1%nat, scale (goToPage 2 (loadPDF 3 initial_viewer))).
Proof.
  split; [reflexivity|].
  apply (proj1 render_completion_not_superseded). reflexivity.
Defined.

Lemma generateAnnotationId_inj_witness :
  generateAnnotationId 1700000000000 "0.4fzyo82mvyr"
    = generateAnnotationId 1700000000000 "0.4fzyo82mvab" /\
  (1700000000000 = 1700000000000)%N /\
  String.substring 2 9 "0.4fzyo82mvyr" = String.substring 2 9 "0.4fzyo82mvab".
Proof.
  split; [reflexivity|].
  apply generateAnnotationId_inj. reflexivity.
Defined.

Lemma zoom_scale_in_range_witness :
  (0.3 <= 1.0 <= 3.0)%Q /\ (0.3 <= zoom_seq [true; true; false; true] 1.0 <= 3.0)%Q /\
  (Nat.iter 50 zoomIn 1.0 <= 3.0)%Q /\ (0.3 <= Nat.iter 50 zoomOut 1.0)%Q.
Proof.
  assert (H1 : (0.3 <= 1.0 <= 3.0)%Q) by (unfold Qle; cbn; lia).
  split; [exact H1|]. split.
  - apply (proj1 zoom_scale_in_range). exact H1.
  - apply (proj2 (proj2 (proj2 zoom_scale_in_range)) 50%nat). lia.
Defined.


Lemma store_only_grows_witness :
  annotations two_annotations !! 0%nat = Some (Ann.mk "a1" "highlight" 100 100 50 50 1 []) /\
  exists a', annotations (run [EvMouseDownBody 0 0 0; EvMouseMove 5 5; EvMouseUp;
                               EvTextInput 0 "x"] two_annotations) !! 0%nat = Some a' /\
             Ann.id a' = "a1".
Proof.
  split; [reflexivity|].
  apply (store_only_grows _ _ _ (Ann.mk "a1" "highlight" 100 100 50 50 1 [])). reflexivity.
Defined.

Lemma gesture_step_frame_witness :
  1%nat <> listener_target (ResizeListener 0 TopLeft (ResizeStart 0 0 50 50 100 100)) /\
  listener_move 10 10 (annotations two_annotations)
    (ResizeListener 0 TopLeft (ResizeStart 0 0 50 50 100 100)) !! 1%nat
  = annotations two_annotations !! 1%nat.
Proof.
  split; [cbn; lia|].
  apply (proj1 (gesture_step_frame (ResizeListener 0 TopLeft (ResizeStart 0 0 50 50 100 100))
                  10 10 (annotations two_annotations) 1)).
  cbn; lia.
Defined.

(* ================================================================= *)
(** * Further properties of the editor and the viewer *)

(** ** Rendering at creation *)

Lemma last_created_annotation (f : Ann.t -> Ann.t) type x y w h p nid (e : editor) :
  last (alter f (length (annotations e))
          (annotations (createAnnotation type x y w h p nid e)))
  = Some (f (Ann.mk nid type x y w h p [])).
Proof.
  cbn. rewrite alter_app_r_alt by lia. rewrite Nat.sub_diag. cbn.
  apply last_snoc.
Qed.

(** [addTextElement] and [addSignature] assign [annotation.data] only
    after [createAnnotation] has rendered the object, so the element shown
    for an added text has an empty input in the default 14px black style,
    and the element shown for an added signature has no image, although
    the stored annotation carries the text or the image data. *)
Theorem added_annotations_render_before_payload :
  (forall t sz c p now r e,
     trim t <> "" ->
     created_element "text" 100 100 200 30 p (generateAnnotationId now r) e
       = Some (Element "annotation text-annotation" "100px" "100px" "200px" "30px"
                 (TextInput (JStr "") (JNum 14) (JStr "#000000"))) /\
     option_map (fun a => js_get "text" (Ann.data a))
       (last (annotations (snd (addTextElement t sz c p now r e))))
       = Some (Some (JStr t))) /\
  (forall d p now r e,
     d <> "" -> d <> "data:," ->
     created_element "signature" 100 100 150 75 p (generateAnnotationId now r) e
       = Some (Element "annotation signature-annotation" "100px" "100px" "150px" "75px"
                 (SignatureImage None)) /\
     option_map (fun a => js_get "imageData" (Ann.data a))
       (last (annotations (snd (addSignature d p now r e))))
       = Some (Some (JStr d))).
Proof.
  split.
  - intros t sz c p now r e Ht. split.
    + unfold created_element. cbn [annotations createAnnotation].
      rewrite last_snoc. reflexivity.
    + unfold addTextElement. apply String.eqb_neq in Ht. rewrite Ht.
      cbn [snd annotations]. rewrite last_created_annotation. reflexivity.
  - intros d p now r e H1 H2. split.
    + unfold created_element. cbn [annotations createAnnotation].
      rewrite last_snoc. reflexivity.
    + unfold addSignature. apply String.eqb_neq in H1, H2. rewrite H1, H2.
      cbn [snd annotations orb]. rewrite last_created_annotation. reflexivity.
Qed.

(** ** Typing into a text annotation *)

Lemma js_get_set_eq (k : string) (v : jsval) (o : list (string * jsval)) :
  js_get k (js_set k v o) = Some v.
Proof.
  induction o as [|[k' v'] o IH]; cbn.
  - by rewrite String.eqb_refl.
  - destruct (String.eqb_spec k k') as [<-|Hne]; cbn.
    + by rewrite String.eqb_refl.
    + apply String.eqb_neq in Hne. by rewrite Hne.
Qed.

Lemma js_get_set_ne (k k2 : string) (v : jsval) (o : list (string * jsval)) :
  k2 <> k -> js_get k2 (js_set k v o) = js_get k2 o.
Proof.
  intros Hne. apply String.eqb_neq in Hne.
  induction o as [|[k' v'] o IH]; cbn.
  - by rewrite Hne.
  - destruct (String.eqb_spec k k') as [<-|Hne']; cbn.
    + by rewrite Hne.
    + by rewrite IH.
Qed.

(** The [input] listener of a text annotation stores the typed value in
    [data.text], leaves the other keys of [data] as they were, and a
    re-render of the annotation shows exactly the typed value with the
    font size and colour it had. *)
Theorem text_input_roundtrip :
  forall (e : editor) (i : nat) (value : string) (a : Ann.t),
    annotations e !! i = Some a ->
    exists a', annotations (text_input i value e) !! i = Some a' /\
      js_get "text" (Ann.data a') = Some (JStr value) /\
      (forall k, k <> "text" -> js_get k (Ann.data a') = js_get k (Ann.data a)) /\
      renderTextAnnotation a'
        = TextInput (JStr value) (js_or (js_get "fontSize" (Ann.data a)) (JNum 14))
                    (js_or (js_get "color" (Ann.data a)) (JStr "#000000")).
Proof.
  intros e i value a Ha. unfold text_input. cbn [annotations].
  rewrite list_lookup_alter_eq, Ha. cbn.
  eexists; split; [reflexivity|]. cbn.
  split; [apply js_get_set_eq|]. split.
  - intros k Hk. by apply js_get_set_ne.
  - unfold renderTextAnnotation. cbn.
    rewrite js_get_set_eq, !js_get_set_ne by discriminate.
    unfold js_or, js_truthy. destruct (String.eqb_spec value "") as [->|_]; reflexivity.
Qed.

(** ** Blank text is rejected *)

Lemma trim_start_nil (l : list Ascii.ascii) :
  trim_start l = [] <-> Forall (fun c => is_js_space c = true) l.
Proof.
  induction l as [|c l IH]; cbn [trim_start]; [split; auto|].
  destruct (is_js_space c) eqn:Hc.
  - rewrite IH. split; [intros; constructor; auto|intros H; by inversion H].
  - split; [discriminate|intros H; inversion H; congruence].
Qed.

Lemma Forall_trim_start (l : list Ascii.ascii) :
  Forall (fun c => is_js_space c = true) (trim_start l) <-> trim_start l = [].
Proof.
  induction l as [|c l IH]; cbn [trim_start]; [split; auto|].
  destruct (is_js_space c) eqn:Hc; [exact IH|].
  split; [intros H; inversion H; congruence|discriminate].
Qed.

Lemma trim_empty (s : string) :
  trim s = "" <-> Forall (fun c => is_js_space c = true) (String.list_ascii_of_string s).
Proof.
  unfold trim. rewrite <- trim_start_nil, <- Forall_trim_start.
  set (m := trim_start (String.list_ascii_of_string s)).
  transitivity (rev (trim_start (rev m)) = []).
  { destruct (rev (trim_start (rev m))); cbn; split; congruence. }
  assert (Hr : Forall (fun c => is_js_space c = true) (rev m) <->
               Forall (fun c => is_js_space c = true) m).
  { split; [intros H; rewrite <- (rev_involutive m); by apply Forall_rev|apply Forall_rev]. }
  rewrite <- Hr, <- trim_start_nil.
  split; [|intros ->; reflexivity].
  intros H. destruct (trim_start (rev m)) eqn:E; [reflexivity|].
  cbn in H. destruct (rev l); discriminate.
Qed.

(** [addTextElement] shows its warning exactly when every character of
    the text is white space for [trim()] (in particular for the empty
    text), and then changes nothing. *)
Theorem addTextElement_rejects_blank :
  forall t sz c p now r e,
    (addTextElement t sz c p now r e = (Some "Please enter some text", e)) <->
    Forall (fun ch => is_js_space ch = true) (String.list_ascii_of_string t).
Proof.
  intros t sz c p now r e. rewrite <- trim_empty. unfold addTextElement.
  destruct (String.eqb_spec (trim t) "") as [H|H].
  - split; [intros _; exact H|reflexivity].
  - split; [discriminate|intros H'; contradiction].
Qed.

(** ** Gestures after pointer-up; composition of moves *)

Lemma fold_inactive (cx cy : Z) (ls : list listener) (anns : list Ann.t) :
  Forall (fun l => listener_active l = false) ls ->
  fold_left (listener_move cx cy) ls anns = anns.
Proof.
  revert anns. induction ls as [|l ls IH]; intros anns Hf; cbn; [reflexivity|].
  inversion Hf as [|? ? Hl Hf']; subst.
  destruct l as [i [s|]|i h s]; cbn in Hl; try discriminate. cbn. by apply IH.
Qed.

Lemma flat_map_listener_up_inactive (ls : list listener) :
  Forall (fun l => listener_active l = false) (flat_map listener_up ls).
Proof.
  induction ls as [|[i st|i h s] ls IH]; cbn; [constructor|constructor; auto|auto].
Qed.

(** After a pointer-up no pointer move changes the store until the next
    pointer-down: every drag and resize listener has stopped. *)
Theorem moves_after_mouse_up_inert :
  forall (moves : list (Z * Z)) (e : editor),
    annotations (fold_left (fun e' c => mouse_move c.1 c.2 e') moves (mouse_up e))
    = annotations e.
Proof.
  intros moves e.
  assert (H : forall e', Forall (fun l => listener_active l = false) (listeners e') ->
            annotations (fold_left (fun e'' c => mouse_move c.1 c.2 e'') moves e')
            = annotations e').
  { induction moves as [|[cx cy] moves IH]; intros e' Hf; cbn; [reflexivity|].
    rewrite IH by exact Hf. cbn. by apply fold_inactive. }
  rewrite H; [reflexivity|]. apply flat_map_listener_up_inactive.
Qed.

(** Within one gesture the annotation depends only on the start snapshot
    and the latest pointer position: moving to [c1] and then to [c2] gives
    the same annotation as moving to [c2] directly. *)
Theorem gesture_moves_use_last_pointer :
  (forall (s : drag_start) (c1x c1y c2x c2y : Z) (a : Ann.t),
     drag_move s c2x c2y (drag_move s c1x c1y a) = drag_move s c2x c2y a) /\
  (forall (h : handle) (s : resize_start) (c1x c1y c2x c2y : Z) (a : Ann.t),
     resize_move h s c2x c2y (resize_move h s c1x c1y a) = resize_move h s c2x c2y a).
Proof. split; [reflexivity|]. intros []; reflexivity. Qed.

(** A drag ended by pointer-up and followed by a second drag of the same
    annotation continues from where the first one left it: the deltas of
    the two gestures add up, and the size is unchanged. *)
Theorem successive_drags_accumulate :
  forall (x y w h sx sy d1x d1y tx ty d2x d2y : Z) (now : N) (r : string),
    let e := run [EvCreate "highlight" x y w h 1 now r;
                  EvMouseDownBody 0 sx sy; EvMouseMove (sx + d1x) (sy + d1y); EvMouseUp;
                  EvMouseDownBody 0 tx ty; EvMouseMove (tx + d2x) (ty + d2y)]
                 empty_editor in
    map (fun a => (Ann.x a, Ann.y a, Ann.width a, Ann.height a)) (annotations e)
      = [(x + d1x + d2x, y + d1y + d2y, w, h)].
Proof.
  intros. cbn. do 5 f_equal; lia.
Qed.

(** ** Resize anchoring *)

(** The corner opposite the dragged handle stays where it was as long as
    the dimension it bounds is not floored; when the width (height) is
    floored at 20 under a left (top) handle, the right (bottom) edge moves
    past its start position, since the position keeps the full delta. *)
Theorem resize_opposite_corner :
  forall (h : handle) (a0 a : Ann.t) (sx sy cx cy : Z),
    let a' := resize_move h (resize_begin sx sy a0) cx cy a in
    let dx := cx - sx in
    let dy := cy - sy in
    match h with
    | TopLeft =>
        (20 <= Ann.width a0 - dx -> Ann.x a' + Ann.width a' = Ann.x a0 + Ann.width a0) /\
        (Ann.width a0 - dx < 20 -> Ann.x a' + Ann.width a' > Ann.x a0 + Ann.width a0) /\
        (20 <= Ann.height a0 - dy -> Ann.y a' + Ann.height a' = Ann.y a0 + Ann.height a0) /\
        (Ann.height a0 - dy < 20 -> Ann.y a' + Ann.height a' > Ann.y a0 + Ann.height a0)
    | TopRight =>
        Ann.x a' = Ann.x a0 /\
        (20 <= Ann.height a0 - dy -> Ann.y a' + Ann.height a' = Ann.y a0 + Ann.height a0) /\
        (Ann.height a0 - dy < 20 -> Ann.y a' + Ann.height a' > Ann.y a0 + Ann.height a0)
    | BottomLeft =>
        (20 <= Ann.width a0 - dx -> Ann.x a' + Ann.width a' = Ann.x a0 + Ann.width a0) /\
        (Ann.width a0 - dx < 20 -> Ann.x a' + Ann.width a' > Ann.x a0 + Ann.width a0) /\
        Ann.y a' = Ann.y a0
    | BottomRight => Ann.x a' = Ann.x a0 /\ Ann.y a' = Ann.y a0
    end.
Proof.
  intros h a0 a sx sy cx cy a' dx dy. subst a' dx dy.
  destruct h; cbn; repeat split; intros; lia.
Qed.

(** ** Invariants of the session *)

Lemma Forall_alter_list {A} (P : A -> Prop) (f : A -> A) (i : nat) (l : list A) :
  Forall P l -> (forall a, P a -> P (f a)) -> Forall P (alter f i l).
Proof.
  intros Hl Hf. apply Forall_lookup. intros j b Hj.
  rewrite list_lookup_alter in Hj. rewrite Forall_lookup in Hl.
  case_decide; subst.
  - destruct (l !! j) as [a|] eqn:Ha; cbn in Hj; [|discriminate].
    injection Hj as <-. apply Hf, (Hl j a Ha).
  - exact (Hl j b Hj).
Qed.

Lemma listener_move_sizes (cx cy : Z) (anns : list Ann.t) (l : listener) :
  Forall (fun a => 20 <= Ann.width a /\ 20 <= Ann.height a) anns ->
  Forall (fun a => 20 <= Ann.width a /\ 20 <= Ann.height a) (listener_move cx cy anns l).
Proof.
  intros H. destruct l as [i [s|]|i h s]; cbn; [|exact H|].
  - apply Forall_alter_list; [exact H|]. intros a Ha. exact Ha.
  - apply Forall_alter_list; [exact H|]. intros a _.
    unfold resize_move, resize_geometry. destruct h; cbn; lia.
Qed.

Lemma step_sizes (ev : event) (e : editor) :
  sizes_ok e -> create_size_ok ev -> sizes_ok (step ev e).
Proof.
  unfold sizes_ok. intros H Hev.
  destruct ev as [ty x y w h p now r | t sz c p now r | d p now r
                 | j cx cy | j hd cx cy | cx cy | | j v]; cbn in *.
  - apply Forall_app. split; [exact H|]. constructor; [exact Hev|constructor].
  - unfold addTextElement. case_match; cbn; [exact H|].
    apply Forall_alter_list; [|intros a Ha; exact Ha].
    apply Forall_app. split; [exact H|]. constructor; [cbn; lia|constructor].
  - unfold addSignature. case_match; cbn; [exact H|].
    apply Forall_alter_list; [|intros a Ha; exact Ha].
    apply Forall_app. split; [exact H|]. constructor; [cbn; lia|constructor].
  - unfold mouse_down_body. destruct (annotations e !! j); exact H.
  - unfold mouse_down_handle. destruct (annotations e !! j); exact H.
  - generalize (annotations e) H. induction (listeners e) as [|l ls IH]; intros anns Ha;
      cbn; [exact Ha|]. apply IH, listener_move_sizes, Ha.
  - exact H.
  - apply Forall_alter_list; [exact H|]. intros a Ha. exact Ha.
Qed.

(** Every annotation stays at least 20 by 20 under every sequence of
    operations, provided direct [createAnnotation] calls use such sizes:
    the tool actions do, drags keep the size, and resizes floor both
    dimensions at 20 (also with several gestures active at once). *)
Theorem sizes_stay_at_least_20 :
  forall (evs : list event) (e : editor),
    sizes_ok e -> Forall create_size_ok evs -> sizes_ok (run evs e).
Proof.
  induction evs as [|ev evs IH]; intros e H Hevs; cbn; [exact H|].
  inversion Hevs; subst. apply IH; [by apply step_sizes|assumption].
Qed.

(** Every annotation of the session has exactly one drag listener pair on
    [document], registered when it was created and never removed, in
    creation order; only resize listener pairs come and go. *)
Theorem one_drag_listener_per_annotation :
  forall evs : list event,
    drag_targets (listeners (run evs empty_editor))
    = seq 0 (length (annotations (run evs empty_editor))).
Proof.
  intros evs.
  assert (G : forall e, drag_targets (listeners e) = seq 0 (length (annotations e)) ->
            drag_targets (listeners (run evs e)) = seq 0 (length (annotations (run evs e)))).
  { induction evs as [|ev evs IH]; intros e H; cbn; [exact H|].
    apply IH, step_drag_targets, H. }
  apply G. reflexivity.
Qed.

(** ** A whole [mousemove] event *)

Lemma listener_move_fields (cx cy : Z) (anns : list Ann.t) (l : listener)
    (i : nat) (a : Ann.t) :
  anns !! i = Some a ->
  exists a', listener_move cx cy anns l !! i = Some a' /\
    Ann.id a' = Ann.id a /\ Ann.type a' = Ann.type a /\
    Ann.page a' = Ann.page a /\ Ann.data a' = Ann.data a /\
    (listener_active l = false \/ listener_target l <> i -> a' = a).
Proof.
  intros Ha. destruct l as [j [s|]|j h s]; cbn.
  - rewrite list_lookup_alter. case_decide; subst; rewrite Ha.
    + eexists; split; [reflexivity|]. cbn. repeat split. intros [?|?]; congruence.
    + eexists; split; [reflexivity|]. repeat split.
  - eexists; split; [exact Ha|]. repeat split.
  - rewrite list_lookup_alter. case_decide; subst; rewrite Ha.
    + unfold resize_move. destruct (resize_geometry h s cx cy) as [[[? ?] ?] ?].
      eexists; split; [reflexivity|]. cbn. repeat split. intros [?|?]; congruence.
    + eexists; split; [reflexivity|]. repeat split.
Qed.

(** One [mousemove], whatever gestures are active, keeps the number of
    annotations and the [id], [type], [page] and [data] of every
    annotation, and leaves entirely unchanged every annotation that no
    active gesture belongs to. *)
Theorem mouse_move_frame :
  forall (cx cy : Z) (e : editor) (i : nat) (a : Ann.t),
    annotations e !! i = Some a ->
    length (annotations (mouse_move cx cy e)) = length (annotations e) /\
    exists a', annotations (mouse_move cx cy e) !! i = Some a' /\
      Ann.id a' = Ann.id a /\ Ann.type a' = Ann.type a /\
      Ann.page a' = Ann.page a /\ Ann.data a' = Ann.data a /\
      (Forall (fun l => listener_active l = false \/ listener_target l <> i) (listeners e) ->
       a' = a).
Proof.
  intros cx cy e i a Ha. unfold mouse_move. cbn [annotations listeners].
  split; [apply length_fold_listener_move|].
  generalize (annotations e) a Ha. clear Ha.
  induction (listeners e) as [|l ls IH]; intros anns b Hb; cbn.
  - exists b. repeat split; auto.
  - destruct (listener_move_fields cx cy anns l i b Hb) as (b1 & H1 & E1 & T1 & P1 & D1 & U1).
    destruct (IH _ _ H1) as (b2 & H2 & E2 & T2 & P2 & D2 & U2).
    exists b2. split; [exact H2|]. split; [congruence|]. split; [congruence|].
    split; [congruence|]. split; [congruence|].
    intros Hf. inversion Hf; subst. rewrite U2 by assumption. by apply U1.
Qed.

(** ** Before a document is loaded *)

Lemma vstep_unloaded (ev : vevent) (v : viewer) : unloaded v -> unloaded (vstep ev v).
Proof.
  intros Hu. pose proof Hu as (Hpdf & Hcur & Ht & Hr & Hc & Hth & Hpt).
  destruct ev as [k|k|p|p| | | |]; cbn.
  - unfold render_done. rewrite Hr. destruct k; exact Hu.
  - unfold thumb_done. rewrite Hpt. destruct k; exact Hu.
  - rewrite Hth. exact Hu.
  - unfold goToPage. rewrite Ht.
    destruct (1 <=? p)%nat eqn:E1; [|exact Hu].
    destruct (p <=? 0)%nat eqn:E2; [|exact Hu].
    apply Nat.leb_le in E1, E2. lia.
  - unfold nextPage. rewrite Hcur, Ht. exact Hu.
  - unfold prevPage. rewrite Hcur. exact Hu.
  - unfold unloaded; cbn. tauto.
  - unfold unloaded; cbn. tauto.
Qed.

(** Until a document is loaded, no viewer event (navigation, thumbnail
    click, zoom) issues a render, draws the canvas, creates a thumbnail or
    moves off page 1. *)
Theorem nothing_rendered_before_load :
  forall evs : list vevent,
    let v := vrun evs initial_viewer in
    pending_renders v = [] /\ canvas v = None /\ thumbs v = [] /\
    pending_thumbs v = [] /\ currentPage v = 1%nat.
Proof.
  intros evs v.
  assert (G : forall w, unloaded w -> unloaded (vrun evs w)).
  { induction evs as [|ev evs IH]; intros w Hw; cbn; [exact Hw|].
    apply IH, vstep_unloaded, Hw. }
  destruct (G initial_viewer) as (_ & Hcur & _ & Hr & Hc & Hth & Hpt).
  { repeat split. }
  repeat split; assumption.
Qed.

(** ** Reloading a document *)





(* ================================================================= *)
(** * Witnesses of the further properties *)

(** An added text "hi": the element shows an empty input, the store holds
    "hi". *)
Lemma added_annotations_render_before_payload_witness :
  trim "hi" <> "" /\
  option_map (fun a => js_get "text" (Ann.data a))
    (last (annotations (snd (addTextElement "hi" 16 "#ff0000" 1 1700000000000
                               "0.4fzyo82mvyr" empty_editor))))
    = Some (Some (JStr "hi")).
Proof.
  assert (Ht : trim "hi" <> "") by (cbv; discriminate).
  split; [exact Ht|].
  apply (proj2 (proj1 added_annotations_render_before_payload "hi" 16 "#ff0000" 1%nat
                  1700000000000%N "0.4fzyo82mvyr" empty_editor Ht)).
Defined.

(** Typing "hello" into a freshly created text annotation. *)
Lemma text_input_roundtrip_witness :
  annotations (createAnnotation "text" 100 100 200 30 1 "t1" empty_editor) !! 0%nat
    = Some (Ann.mk "t1" "text" 100 100 200 30 1 []) /\
  exists a', annotations (text_input 0 "hello"
                            (createAnnotation "text" 100 100 200 30 1 "t1" empty_editor))
               !! 0%nat = Some a' /\
             js_get "text" (Ann.data a') = Some (JStr "hello").
Proof.
  split; [reflexivity|].
  destruct (text_input_roundtrip (createAnnotation "text" 100 100 200 30 1 "t1" empty_editor)
              0 "hello" (Ann.mk "t1" "text" 100 100 200 30 1 []) eq_refl)
    as (a' & H1 & H2 & _).
  exists a'. split; [exact H1|exact H2].
Defined.

(** A 50 by 50 highlight shrunk from its top-left handle by 50 pixels in
    each direction: both dimensions are floored at 20. *)
Lemma sizes_stay_at_least_20_witness :
  sizes_ok empty_editor /\
  Forall create_size_ok [EvCreate "highlight" 0 0 50 50 1 1700000000000 "0.4fzyo82mvyr";
                         EvMouseDownHandle 0 TopLeft 50 50; EvMouseMove 100 100] /\
  sizes_ok (run [EvCreate "highlight" 0 0 50 50 1 1700000000000 "0.4fzyo82mvyr";
                 EvMouseDownHandle 0 TopLeft 50 50; EvMouseMove 100 100] empty_editor).
Proof.
  assert (H1 : sizes_ok empty_editor) by constructor.
  assert (H2 : Forall create_size_ok
                 [EvCreate "highlight" 0 0 50 50 1 1700000000000 "0.4fzyo82mvyr";
                  EvMouseDownHandle 0 TopLeft 50 50; EvMouseMove 100 100])
    by (repeat constructor; cbn; lia).
  split; [exact H1|]. split; [exact H2|].
  apply (sizes_stay_at_least_20 _ _ H1 H2).
Defined.

(** A pointer move over [two_annotations] while the first annotation is
    being dragged: the second annotation, which no active gesture belongs
    to, is left as it was. *)
Lemma mouse_move_frame_witness :
  annotations (mouse_down_body 0 0 0 two_annotations) !! 1%nat
    = Some (Ann.mk "a2" "highlight" 200 100 50 50 1 []) /\
  active_gestures (mouse_down_body 0 0 0 two_annotations) = 1%nat /\
  annotations (mouse_move 10 10 (mouse_down_body 0 0 0 two_annotations)) !! 1%nat
    = Some (Ann.mk "a2" "highlight" 200 100 50 50 1 []).
Proof.
  assert (Ha : annotations (mouse_down_body 0 0 0 two_annotations) !! 1%nat
                 = Some (Ann.mk "a2" "highlight" 200 100 50 50 1 [])) by reflexivity.
  split; [exact Ha|]. split; [reflexivity|].
  destruct (mouse_move_frame 10 10 (mouse_down_body 0 0 0 two_annotations) 1
              (Ann.mk "a2" "highlight" 200 100 50 50 1 []) Ha)
    as [_ (a' & H1 & _ & _ & _ & _ & U)].
  rewrite H1, U; [reflexivity|].
  cbn. constructor; [right; cbn; discriminate|].
  constructor; [left; reflexivity|]. constructor.
Defined.

